(** * Stash REST client for Python plugins: a shallow embedding

    Source: [pkg/plugin/examples/python/stash_rest.py], class
    [StashRESTClient].

    Python values are embedded as the inductive [pyval] (the values the
    [json] module decodes to), dictionaries as stdpp finite maps keyed by
    strings, raised exceptions as the [Raise] branch of [result], and the
    two external collaborators of the class (the [requests] transport and
    the JSON decoder behind [response.json()]) as variables of a section.
    Every method runs in a small state monad whose state is the instance
    ([self]) together with the trace of interactions with the outside. *)

From stdpp Require Import gmap strings list fin_maps pretty.

Set Warnings "-register-all".

Open Scope Z_scope.

(** ** Python values *)

(** [PFloat] carries the IEEE-754 binary64 bit pattern of the float. *)
Inductive pyval : Type :=
  | PNone
  | PBool (b : bool)
  | PInt (z : Z)
  | PFloat (bits : Z)
  | PStr (s : string)
  | PList (l : list pyval)
  | PDict (d : gmap string pyval).

(** ** Exceptions and results *)

Inductive exn : Type :=
  | KeyError (key : string)
  | AttributeError (attr : string)
  | TypeError (msg : string)
  | JSONDecodeError
  | ConnectionError (msg : string)
  | Exception (msg : string).

Inductive result (A : Type) : Type :=
  | Ok (a : A)
  | Raise (e : exn).
Arguments Ok {A} a.
Arguments Raise {A} e.

Definition is_ok {A} (r : result A) : bool :=
  match r with Ok _ => true | Raise _ => false end.

(** ** Built-in operations of Python used by the client *)

(** [bool(v)]: the truth value tested by [if v:]. A float is false exactly
    when it is [+0.0] or [-0.0], that is when all bits but the sign are 0. *)
Definition py_truthy (v : pyval) : bool :=
  match v with
  | PNone => false
  | PBool b => b
  | PInt z => negb (z =? 0)
  | PFloat bits => negb (Z.land bits (2 ^ 63 - 1) =? 0)
  | PStr s => negb (String.eqb s "")
  | PList l => match l with [] => false | _ :: _ => true end
  | PDict d => negb (bool_decide (d = ∅))
  end.

(** [v[key]] with a string key. *)
Definition py_getitem (v : pyval) (key : string) : result pyval :=
  match v with
  | PDict d =>
      match d !! key with
      | Some x => Ok x
      | None => Raise (KeyError key)
      end
  | PList _ => Raise (TypeError "list indices must be integers or slices, not str")
  | PStr _ => Raise (TypeError "string indices must be integers")
  | _ => Raise (TypeError "object is not subscriptable")
  end.

(** [v.get(key, dflt)]: only dictionaries have the method. *)
Definition py_get (v : pyval) (key : string) (dflt : pyval) : result pyval :=
  match v with
  | PDict d => Ok (default dflt (d !! key))
  | _ => Raise (AttributeError "get")
  end.

(** [v == name] for a [str] [name]: only an equal [str] compares equal. *)
Definition py_eq_str (v : pyval) (name : string) : bool :=
  match v with
  | PStr s => String.eqb s name
  | _ => false
  end.

(** [iter(v)] as the list of the items a [for] loop visits. A dictionary
    yields its keys and a string its characters; numbers, booleans and
    [None] are not iterable. *)
Fixpoint chars (s : string) : list pyval :=
  match s with
  | EmptyString => []
  | String c s' => PStr (String c EmptyString) :: chars s'
  end.

Definition py_iter (v : pyval) : result (list pyval) :=
  match v with
  | PList l => Ok l
  | PStr s => Ok (chars s)
  | PDict d => Ok (PStr <$> (map_to_list d).*1)
  | _ => Raise (TypeError "object is not iterable")
  end.

(** ** The outside world *)

Record http_request := HttpRequest {
  rq_method : string;
  rq_url : string;
  rq_json : pyval;
  rq_headers : gmap string string;
  rq_cookies : gmap string pyval
}.

Record http_response := HttpResponse {
  status_code : Z;
  text : string
}.

(** What the client does to the outside: it sends a request through
    [requests.request], or it asks a response for its decoded JSON. *)
Inductive event : Type :=
  | EvRequest (rq : http_request)
  | EvJson (body : string).

(** The collaborators the class does not define: the transport (whose answer
    may depend on everything that happened before, and which may raise),
    the JSON decoder behind [response.json()], and [repr] on floats and
    containers, which [str()] falls back to. *)
Class Environment := {
  network : list event → http_request → result http_response;
  json_loads : string → result pyval;
  py_repr : pyval → string
}.

(** [str(v)], used by every replacement field of an f-string. *)
Definition py_str `{Environment} (v : pyval) : string :=
  match v with
  | PNone => "None"
  | PBool true => "True"
  | PBool false => "False"
  | PInt z => pretty z
  | PStr s => s
  | _ => py_repr v
  end.

(** ** The instance and the monad its methods run in *)

Record StashRESTClient := Build_StashRESTClient {
  port : pyval;
  base_url : string;
  headers : gmap string string;
  cookies : gmap string pyval
}.

Record pystate := PyState {
  st_self : StashRESTClient;
  st_trace : list event
}.

Definition Py (A : Type) : Type := pystate → result A * pystate.

Global Instance result_ret : MRet result := λ A a, Ok a.
Global Instance result_bind : MBind result := λ A B f m,
  match m with Ok a => f a | Raise e => Raise e end.

Global Instance Py_ret : MRet Py := λ A a st, (Ok a, st).
Global Instance Py_bind : MBind Py := λ A B f m st,
  match m st with
  | (Ok a, st') => f a st'
  | (Raise e, st') => (Raise e, st')
  end.

Definition raise {A} (e : exn) : Py A := λ st, (Raise e, st).
Definition lift {A} (r : result A) : Py A := λ st, (r, st).
Definition get_self : Py StashRESTClient := λ st, (Ok (st_self st), st).
Definition set_self (c : StashRESTClient) : Py unit :=
  λ st, (Ok tt, PyState c (st_trace st)).
Definition record_event (ev : event) (st : pystate) : pystate :=
  PyState (st_self st) (st_trace st ++ [ev]).

(** [requests.request(method, url, json=..., headers=..., cookies=...)]. *)
Definition requests_request `{Environment} (rq : http_request) : Py http_response :=
  λ st, (network (st_trace st) rq, record_event (EvRequest rq) st).

(** [response.json()]. *)
Definition response_json `{Environment} (r : http_response) : Py pyval :=
  λ st, (json_loads (text r), record_event (EvJson (text r)) st).

(** ** The class [StashRESTClient] *)

Module StashREST.
Section methods.
Context `{Environment}.

(** The header set built by the constructor, the same for every instance. *)
Definition default_headers : gmap string string :=
  <["Accept-Encoding" := "gzip, deflate, br"]>
  (<["Content-Type" := "application/json"]>
  (<["Accept" := "application/json"]>
  (<["Connection" := "keep-alive"]> ∅))).

(** [StashRESTClient(conn)]. *)
Definition __init__ (conn : pyval) : result StashRESTClient :=
  self_port ← py_getitem conn "Port";
  scheme ← py_getitem conn "Scheme";
  host ← py_get conn "Host" (PStr "localhost");
  let self_base_url :=
    py_str scheme +:+ "://" +:+ py_str host +:+ ":" +:+ py_str self_port +:+ "/api/v1" in
  let self_headers := default_headers in
  cookie ← py_get conn "SessionCookie" PNone;
  let self_cookies : gmap string pyval := ∅ in
  self_cookies ←
    (if py_truthy cookie
     then value ← py_get cookie "Value" (PStr "");
          mret (<["session" := value]> self_cookies)
     else mret self_cookies);
  mret (Build_StashRESTClient self_port self_base_url self_headers self_cookies).

(** The message of the exception raised on a status of 400 or more. *)
Definition error_message (status : Z) (body method path : string) : string :=
  "REST API error " +:+ pretty status +:+ ": " +:+ body +:+ ". "
  +:+ "Method: " +:+ method +:+ ", Path: " +:+ path.

Definition _request (method path : string) (json_body : pyval) : Py pyval :=
  self ← get_self;
  let url := base_url self +:+ path in
  response ← requests_request
    (HttpRequest method url json_body (headers self) (cookies self));
  if 400 <=? status_code response
  then raise (Exception
         (error_message (status_code response) (text response) method path))
  else if (status_code response =? 204) || negb (py_truthy (PStr (text response)))
  then mret PNone
  else response_json response.

Definition get (path : string) : Py pyval := _request "GET" path PNone.
Definition post (path : string) (body : pyval) : Py pyval := _request "POST" path body.
Definition put (path : string) (body : pyval) : Py pyval := _request "PUT" path body.
Definition patch (path : string) (body : pyval) : Py pyval := _request "PATCH" path body.
Definition delete (path : string) (body : pyval) : Py pyval := _request "DELETE" path body.

(** The loop of [find_tag_by_name]: the first [return] ends it, and
    falling off the end reaches the final [return None]. *)
Fixpoint scan_tags (name : string) (tags : list pyval) : result pyval :=
  match tags with
  | [] => Ok PNone
  | tag :: rest =>
      tag_name ← py_getitem tag "name";
      if py_eq_str tag_name name
      then py_getitem tag "id"
      else scan_tags name rest
  end.

(** The body sent by [find_tag_by_name]. *)
Definition tag_query (name : string) : pyval :=
  PDict {[ "filter" := PDict (<["q" := PStr name]> {[ "per_page" := PInt (-1) ]}) ]}.

(** What [find_tag_by_name] does with the decoded answer [res] (the
    local variable [result] of the source). *)
Definition pick_tag (name : string) (res : pyval) : result pyval :=
  found ← (if py_truthy res
           then tags ← py_get res "tags" PNone; mret (py_truthy tags)
           else mret false);
  if found : bool
  then tags ← py_getitem res "tags";
       items ← py_iter tags;
       scan_tags name items
  else mret PNone.

Definition find_tag_by_name (name : string) : Py pyval :=
  res ← post "/tags/query" (tag_query name);
  lift (pick_tag name res).

Definition create_tag (name : string) : Py pyval :=
  post "/tags" (PDict {[ "name" := PStr name ]}).

(** [if arg: body[key] = arg]. *)
Definition set_if (arg : pyval) (key : string) (body : gmap string pyval)
  : gmap string pyval :=
  if py_truthy arg then <[key := arg]> body else body.

Definition find_scenes_body (filter_params scene_filter : pyval) : gmap string pyval :=
  set_if scene_filter "scene_filter" (set_if filter_params "filter" ∅).

Definition find_scenes (filter_params scene_filter : pyval) : Py pyval :=
  post "/scenes/query" (PDict (find_scenes_body filter_params scene_filter)).

Definition find_performers_body (filter_params performer_filter : pyval)
  : gmap string pyval :=
  set_if performer_filter "performer_filter" (set_if filter_params "filter" ∅).

Definition find_performers (filter_params performer_filter : pyval) : Py pyval :=
  post "/performers/query" (PDict (find_performers_body filter_params performer_filter)).

Definition metadata_scan_body (paths : pyval) : gmap string pyval :=
  set_if paths "paths" ∅.

Definition metadata_scan (paths : pyval) : Py pyval :=
  post "/metadata/scan" (PDict (metadata_scan_body paths)).
End methods.
End StashREST.

(** ** Using an instance *)

(** One call of a method on an instance. *)
Inductive call : Type :=
  | Call_request (method path : string) (json_body : pyval)
  | Call_get (path : string)
  | Call_post (path : string) (body : pyval)
  | Call_put (path : string) (body : pyval)
  | Call_patch (path : string) (body : pyval)
  | Call_delete (path : string) (body : pyval)
  | Call_find_tag_by_name (name : string)
  | Call_create_tag (name : string)
  | Call_find_scenes (filter_params scene_filter : pyval)
  | Call_find_performers (filter_params performer_filter : pyval)
  | Call_metadata_scan (paths : pyval).

Definition perform `{Environment} (c : call) : Py pyval :=
  match c with
  | Call_request method path json_body => StashREST._request method path json_body
  | Call_get path => StashREST.get path
  | Call_post path body => StashREST.post path body
  | Call_put path body => StashREST.put path body
  | Call_patch path body => StashREST.patch path body
  | Call_delete path body => StashREST.delete path body
  | Call_find_tag_by_name name => StashREST.find_tag_by_name name
  | Call_create_tag name => StashREST.create_tag name
  | Call_find_scenes fp sf => StashREST.find_scenes fp sf
  | Call_find_performers fp pf => StashREST.find_performers fp pf
  | Call_metadata_scan paths => StashREST.metadata_scan paths
  end.

(** A caller performs calls one after the other on the same instance; an
    exception of one call is the caller's to handle and does not end the
    instance. *)
Fixpoint perform_all `{Environment} (cs : list call) (st : pystate)
  : list (result pyval) * pystate :=
  match cs with
  | [] => ([], st)
  | c :: cs' =>
      let '(r, st') := perform c st in
      let '(rs, st'') := perform_all cs' st' in
      (r :: rs, st'')
  end.


(** The request [_request] hands to the transport on instance [c]. *)
Definition request_of (c : StashRESTClient) (method path : string) (json_body : pyval)
  : http_request :=
  HttpRequest method (base_url c +:+ path) json_body (headers c) (cookies c).

(** ** Vocabulary of the specification *)

(** A tag object as [/tags/query] returns it: an object with a name and an id. *)
Definition tag_object (tag : pyval) : bool :=
  match tag with
  | PDict d => bool_decide (is_Some (d !! "name")) && bool_decide (is_Some (d !! "id"))
  | _ => false
  end.

(** The tag's name equals [name] exactly. *)
Definition is_named (name : string) (tag : pyval) : bool :=
  match tag with
  | PDict d =>
      match d !! "name" with
      | Some (PStr s) => bool_decide (s = name)
      | _ => false
      end
  | _ => false
  end.




(** The dictionary [d] is a valid connection value: a string scheme, an
    integer port, an optional string host, and a session cookie that is
    absent, null or an object. *)
Definition valid_connection (d : gmap string pyval)
    (scheme : string) (host : option string) (port_number : Z) : Prop :=
  d !! "Scheme" = Some (PStr scheme) ∧
  d !! "Port" = Some (PInt port_number) ∧
  d !! "Host" = PStr <$> host ∧
  (d !! "SessionCookie" = None ∨ d !! "SessionCookie" = Some PNone
   ∨ ∃ ck, d !! "SessionCookie" = Some (PDict ck)).

(** The address the specification gives for such a connection. *)
Definition spec_base_url (scheme : string) (host : option string) (port_number : Z)
  : string :=
  scheme +:+ "://" +:+ default "localhost" host +:+ ":" +:+ pretty port_number +:+ "/api/v1".

(** The decoded answer carries no tag to look at: it is null, or an object
    whose [tags] entry is absent, null or empty. *)
Definition no_tags (v : pyval) : Prop :=
  v = PNone ∨
  ∃ d, v = PDict d ∧
       (d !! "tags" = None ∨ d !! "tags" = Some PNone ∨ d !! "tags" = Some (PList [])).



(** Every request made through instance [c] reaches the transport as a
    request satisfying [P], whatever the state of the outside. *)
Definition every_request `{Environment} (c : StashRESTClient)
    (P : string → string → pyval → http_request → Prop) : Prop :=
  ∀ st method path json_body,
    st_self st = c →
    ∃ rq rest,
      st_trace (StashREST._request method path json_body st).2
      = st_trace st ++ EvRequest rq :: rest
      ∧ P method path json_body rq.

(** ** Concrete environments and inputs *)

(** A server that answers every request with [resp], whose body decodes to
    [decoded]. *)
Definition canned (resp : http_response) (decoded : result pyval) : Environment :=
  {| network := λ _ _, Ok resp;
     json_loads := λ body,
       if String.eqb body (text resp) then decoded else Raise JSONDecodeError;
     py_repr := λ _, "?" |}.

Definition tag (id name : string) : pyval :=
  PDict (<["id" := PStr id]> {[ "name" := PStr name ]}).

Definition foo_tags : list pyval :=
  [tag "1" "Foobar"; tag "2" "foo"; tag "3" "Foo"; tag "4" "Foo"].

Definition foo_answer : pyval :=
  PDict (<["count" := PInt 4]> {[ "tags" := PList foo_tags ]}).

Definition foo_env : Environment :=
  canned (HttpResponse 200 "{...}") (Ok foo_answer).

Definition demo_conn : gmap string pyval :=
  <["Scheme" := PStr "http"]>
  (<["Port" := PInt 9999]>
  (<["Host" := PStr "localhost"]>
  {[ "SessionCookie" := PDict {[ "Value" := PStr "abc" ]} ]})).

Definition demo_client : StashRESTClient :=
  Build_StashRESTClient (PInt 9999) "http://localhost:9999/api/v1"
    StashREST.default_headers {[ "session" := PStr "abc" ]}.

Definition demo_state : pystate := PyState demo_client [].

(** A server without content, and one that refuses. *)
Definition no_content_env : Environment :=
  canned (HttpResponse 204 "") (Raise JSONDecodeError).

Definition empty_tags_env : Environment :=
  canned (HttpResponse 200 "{...}") (Ok (PDict (<["count" := PInt 0]> {[ "tags" := PList [] ]}))).

Definition not_found_env : Environment :=
  canned (HttpResponse 404 "not found") (Raise JSONDecodeError).

Definition failing_env : Environment :=
  canned (HttpResponse 500 "") (Raise JSONDecodeError).

(** Answers whose second item is not a complete tag object. *)
Definition nameless_env : Environment :=
  canned (HttpResponse 200 "{...}")
    (Ok (PDict {[ "tags" := PList [tag "1" "Foobar"; PDict {[ "id" := PStr "2" ]}] ]})).

Definition idless_env : Environment :=
  canned (HttpResponse 200 "{...}")
    (Ok (PDict {[ "tags" := PList [tag "1" "Foobar"; PDict {[ "name" := PStr "Foo" ]}] ]})).

(** A connection whose session cookie has an empty value. *)
Definition empty_value_conn : gmap string pyval :=
  <["Scheme" := PStr "http"]>
  (<["Port" := PInt 9999]>
  {[ "SessionCookie" := PDict {[ "Value" := PStr "" ]} ]}).



(** ** What the methods put on the wire *)

(** The HTTP method, the path and the body of the request a call makes,
    read off the body of each method. *)
Definition wire_of (c : call) : string * string * pyval :=
  match c with
  | Call_request method path json_body => (method, path, json_body)
  | Call_get path => ("GET", path, PNone)
  | Call_post path body => ("POST", path, body)
  | Call_put path body => ("PUT", path, body)
  | Call_patch path body => ("PATCH", path, body)
  | Call_delete path body => ("DELETE", path, body)
  | Call_find_tag_by_name name => ("POST", "/tags/query", StashREST.tag_query name)
  | Call_create_tag name => ("POST", "/tags", PDict {[ "name" := PStr name ]})
  | Call_find_scenes fp sf =>
      ("POST", "/scenes/query", PDict (StashREST.find_scenes_body fp sf))
  | Call_find_performers fp pf =>
      ("POST", "/performers/query", PDict (StashREST.find_performers_body fp pf))
  | Call_metadata_scan paths =>
      ("POST", "/metadata/scan", PDict (StashREST.metadata_scan_body paths))
  end.

(** The request a call makes on instance [self]. *)
Definition sent_by (self : StashRESTClient) (c : call) : http_request :=
  request_of self (wire_of c).1.1 (wire_of c).1.2 (wire_of c).2.

(** What a method does with the outcome of its request: only
    [find_tag_by_name] looks into the answer. *)
Definition after_request (c : call) (r : result pyval) : result pyval :=
  match c with
  | Call_find_tag_by_name name => r ≫= StashREST.pick_tag name
  | _ => r
  end.

Definition is_request (ev : event) : bool :=
  match ev with EvRequest _ => true | EvJson _ => false end.

(** The number of requests, and of decodings, in a trace. *)
Definition count_requests (tr : list event) : nat :=
  length (List.filter is_request tr).

Definition count_decodings (tr : list event) : nat :=
  length (List.filter (λ ev, negb (is_request ev)) tr).

(** The entry a query method writes for an optional argument. *)
Definition sent_if_truthy (arg : pyval) : option pyval :=
  if py_truthy arg then Some arg else None.

(** ** Shapes of connections and of tags *)

(** The connections the constructor accepts. *)
Definition constructible (conn : pyval) : Prop :=
  ∃ d, conn = PDict d
       ∧ is_Some (d !! "Port")
       ∧ is_Some (d !! "Scheme")
       ∧ (py_truthy (default PNone (d !! "SessionCookie")) = false
          ∨ ∃ ck, d !! "SessionCookie" = Some (PDict ck)).

Definition is_dict (v : pyval) : bool :=
  match v with PDict _ => true | _ => false end.

Definition is_list (v : pyval) : bool :=
  match v with PList _ => true | _ => false end.

(** An object with a ["name"] entry that is not the string [name]; it needs
    no ["id"]. *)
Definition other_name (name : string) (item : pyval) : bool :=
  match item with
  | PDict d =>
      match d !! "name" with
      | Some v => negb (py_eq_str v name)
      | None => false
      end
  | _ => false
  end.

(** The instance [c] with another [port] attribute. *)
Definition with_port (c : StashRESTClient) (p : pyval) : StashRESTClient :=
  Build_StashRESTClient p (base_url c) (headers c) (cookies c).

(** More environments: a transport that cannot connect, a body that is not
    JSON, answers of unexpected shapes. *)
Definition offline_env : Environment :=
  {| network := λ _ _, Raise (ConnectionError "connection refused");
     json_loads := λ _, Raise JSONDecodeError;
     py_repr := λ _, "?" |}.

Definition garbled_env : Environment :=
  canned (HttpResponse 200 "<html>") (Raise JSONDecodeError).

Definition array_env : Environment :=
  canned (HttpResponse 200 "[...]") (Ok (PList [tag "3" "Foo"])).

Definition tags_string_env : Environment :=
  canned (HttpResponse 200 "{...}") (Ok (PDict {[ "tags" := PStr "Foo" ]})).

Definition tags_null_item_env : Environment :=
  canned (HttpResponse 200 "{...}")
    (Ok (PDict {[ "tags" := PList [tag "1" "Foobar"; PNone; tag "3" "Foo"] ]})).

Definition junk_after_match_env : Environment :=
  canned (HttpResponse 200 "{...}")
    (Ok (PDict {[ "tags" := PList [PDict {[ "name" := PStr "Foobar" ]}; tag "3" "Foo";
                                   PNone; PInt 7] ]})).

(** A connection whose session cookie is a bare string. *)
Definition string_cookie_conn : gmap string pyval :=
  <["Scheme" := PStr "http"]>
  (<["Port" := PInt 9999]>
  {[ "SessionCookie" := PStr "abc" ]}).

(** ** Proof automation *)

(** Runs [_request] up to the answer [Hnet] of the transport. *)
Ltac run_request Hnet :=
  unfold StashREST._request, mbind, Py_bind, get_self, requests_request, request_of in *;
  cbn beta iota; rewrite Hnet.

(** * Properties *)

(** ** The running example *)

Example demo_init : @StashREST.__init__ foo_env (PDict demo_conn) = Ok demo_client.
Proof. vm_compute. reflexivity. Qed.

Example demo_find : (@StashREST.find_tag_by_name foo_env "Foo" demo_state).1 = Ok (PStr "3").
Proof. vm_compute. reflexivity. Qed.

(** ** The generic request *)

Section request_facts.
Context `{Environment}.
Implicit Types (st : pystate) (resp : http_response) (method path : string).

Lemma request_transport_failure st method path json_body e :
  network (st_trace st) (request_of (st_self st) method path json_body) = Raise e →
  StashREST._request method path json_body st
  = (Raise e, record_event (EvRequest (request_of (st_self st) method path json_body)) st).
Proof. intros Hnet. run_request Hnet. reflexivity. Qed.

Lemma request_error st method path json_body resp :
  network (st_trace st) (request_of (st_self st) method path json_body) = Ok resp →
  400 ≤ status_code resp →
  StashREST._request method path json_body st
  = (Raise (Exception (StashREST.error_message (status_code resp) (text resp) method path)),
     record_event (EvRequest (request_of (st_self st) method path json_body)) st).
Proof.
  intros Hnet Hge. run_request Hnet.
  destruct (Z.leb_spec 400 (status_code resp)); [reflexivity | lia].
Qed.

Lemma truthy_text (s : string) : py_truthy (PStr s) = false ↔ s = "".
Proof.
  unfold py_truthy. destruct (String.eqb_spec s ""); simpl; split; intros; congruence.
Qed.

Lemma request_null st method path json_body resp :
  network (st_trace st) (request_of (st_self st) method path json_body) = Ok resp →
  status_code resp < 400 →
  status_code resp = 204 ∨ text resp = "" →
  StashREST._request method path json_body st
  = (Ok PNone,
     record_event (EvRequest (request_of (st_self st) method path json_body)) st).
Proof.
  intros Hnet Hlt Hnull. run_request Hnet.
  destruct (Z.leb_spec 400 (status_code resp)); [lia |].
  destruct Hnull as [-> | Hempty]; [reflexivity |].
  apply truthy_text in Hempty. rewrite Hempty, orb_true_r. reflexivity.
Qed.

Lemma request_json st method path json_body resp :
  network (st_trace st) (request_of (st_self st) method path json_body) = Ok resp →
  status_code resp < 400 →
  status_code resp ≠ 204 →
  text resp ≠ "" →
  StashREST._request method path json_body st
  = (json_loads (text resp),
     record_event (EvJson (text resp))
       (record_event (EvRequest (request_of (st_self st) method path json_body)) st)).
Proof.
  intros Hnet Hlt H204 Htext. run_request Hnet.
  destruct (Z.leb_spec 400 (status_code resp)); [lia |].
  destruct (Z.eqb_spec (status_code resp) 204); [done |].
  destruct (py_truthy (PStr (text resp))) eqn:Htruthy.
  - reflexivity.
  - apply truthy_text in Htruthy. done.
Qed.

(** Whatever the outcome, a request leaves the instance as it was and
    puts exactly one request on the wire, followed at most by the
    decoding of the answer. *)
Lemma request_frame st method path json_body :
  let st' := (StashREST._request method path json_body st).2 in
  st_self st' = st_self st ∧
  ∃ decoding, st_trace st'
    = st_trace st ++ EvRequest (request_of (st_self st) method path json_body) :: decoding
    ∧ (decoding = [] ∨ ∃ body, decoding = [EvJson body]).
Proof.
  destruct (network (st_trace st) (request_of (st_self st) method path json_body))
    as [resp | e] eqn:Hnet.
  - destruct (Z.leb_spec 400 (status_code resp)).
    + rewrite (request_error _ _ _ _ _ Hnet) by done. cbn. eauto.
    + destruct (decide (status_code resp = 204 ∨ text resp = "")) as [Hnull | Hjson].
      * rewrite (request_null _ _ _ _ _ Hnet) by done. cbn. eauto.
      * rewrite (request_json _ _ _ _ _ Hnet) by tauto. cbn.
        split; [done |]. eexists. rewrite <- app_assoc. cbn. eauto.
  - rewrite (request_transport_failure _ _ _ _ _ Hnet). cbn. eauto.
Qed.
End request_facts.

(** ** Looking a tag up in a decoded answer *)

Section tag_facts.
Implicit Types (name : string) (tags : list pyval) (d : gmap string pyval).

Lemma dict_truthy d key v : d !! key = Some v → py_truthy (PDict d) = true.
Proof.
  intros Hkey. cbn. apply negb_true_iff, bool_decide_eq_false.
  intros ->. by rewrite lookup_empty in Hkey.
Qed.

Lemma py_getitem_present d key v :
  d !! key = Some v → py_getitem (PDict d) key = Ok v.
Proof. intros Hkey. cbn. by rewrite Hkey. Qed.

Lemma py_getitem_missing d key :
  d !! key = None → py_getitem (PDict d) key = Raise (KeyError key).
Proof. intros Hkey. cbn. by rewrite Hkey. Qed.

Lemma py_eq_str_is_named name d v :
  d !! "name" = Some v → py_eq_str v name = is_named name (PDict d).
Proof.
  intros Hname. cbn. rewrite Hname. destruct v; try reflexivity. cbn.
  destruct (String.eqb_spec s name).
  - by rewrite bool_decide_eq_true_2.
  - by rewrite bool_decide_eq_false_2.
Qed.

Lemma tag_object_inv (t : pyval) :
  tag_object t = true →
  ∃ d v i, t = PDict d ∧ d !! "name" = Some v ∧ d !! "id" = Some i.
Proof.
  destruct t; try discriminate. cbn.
  rewrite andb_true_iff, !bool_decide_eq_true.
  intros [[v Hv] [i Hi]]. eauto 6.
Qed.


(** Tag objects with another name are stepped over. *)
Lemma scan_tags_skip name before rest :
  Forall (λ t, tag_object t = true ∧ is_named name t = false) before →
  StashREST.scan_tags name (before ++ rest) = StashREST.scan_tags name rest.
Proof.
  induction 1 as [| t before [Ht Hother] _ IH]; [reflexivity |].
  destruct (tag_object_inv t Ht) as (d & v & i & -> & Hname & Hid).
  cbn [app StashREST.scan_tags].
  rewrite (py_getitem_present d "name" v Hname). cbn [mbind result_bind].
  by rewrite (py_eq_str_is_named name d v Hname), Hother.
Qed.

Lemma pick_tag_list name d tags :
  d !! "tags" = Some (PList tags) →
  StashREST.pick_tag name (PDict d) = StashREST.scan_tags name tags.
Proof.
  intros Htags. unfold StashREST.pick_tag.
  rewrite (dict_truthy d "tags" _ Htags). cbn [py_get]. rewrite Htags.
  destruct tags as [| t tags]; [reflexivity |].
  cbn [default mbind result_bind mret result_ret py_truthy].
  by rewrite (py_getitem_present d "tags" _ Htags).
Qed.

Lemma pick_tag_no_tags name (v : pyval) :
  no_tags v → StashREST.pick_tag name v = Ok PNone.
Proof.
  intros [-> | (d & -> & Htags)]; [reflexivity |].
  unfold StashREST.pick_tag.
  destruct (py_truthy (PDict d)); [| reflexivity].
  cbn [py_get mbind result_bind].
  by destruct Htags as [-> | [-> | ->]].
Qed.

Lemma find_tag_by_name_unfold `{Environment} name st :
  StashREST.find_tag_by_name name st
  = match StashREST._request "POST" "/tags/query" (StashREST.tag_query name) st with
    | (Ok v, st') => (StashREST.pick_tag name v, st')
    | (Raise e, st') => (Raise e, st')
    end.
Proof. reflexivity. Qed.
End tag_facts.

(** ** Bodies of the query methods *)

Section body_facts.
Implicit Types (arg : pyval) (body : gmap string pyval) (key : string).



Lemma set_if_other arg key key' body :
  key ≠ key' → StashREST.set_if arg key body !! key' = body !! key'.
Proof.
  intros Hne. unfold StashREST.set_if.
  destruct (py_truthy arg); [by rewrite lookup_insert_ne | done].
Qed.
End body_facts.

(** ** [find_tag_by_name] *)

Section find_tag.
Context `{Environment}.
Implicit Types (name : string) (st : pystate) (tags : list pyval).




(** C9. [find_tag_by_name] returns null, raising nothing and doing
    nothing more, when the answer to its query decodes to null or to an
    object whose [tags] entry is absent, null or empty. *)
Theorem find_tag_by_name_no_tags name st (v : pyval) st' :
  StashREST.post "/tags/query" (StashREST.tag_query name) st = (Ok v, st') →
  no_tags v →
  StashREST.find_tag_by_name name st = (Ok PNone, st').
Proof.
  intros Hpost Hno. rewrite find_tag_by_name_unfold.
  unfold StashREST.post in Hpost. rewrite Hpost.
  by rewrite (pick_tag_no_tags name v Hno).
Qed.

(** C10. [find_tag_by_name] takes every item of the [tags] sequence for
    an object with a ["name"] key, and a matching one for an object with
    an ["id"] key: when the first item that is not a tag object of another
    name lacks ["name"], or has the name sought and lacks ["id"], the call
    raises the [KeyError] of the lookup instead of stepping over the item
    or returning null. *)
Theorem find_tag_by_name_lookup_error name st st'
    (d : gmap string pyval) before (t : gmap string pyval) after :
  StashREST.post "/tags/query" (StashREST.tag_query name) st = (Ok (PDict d), st') →
  d !! "tags" = Some (PList (before ++ PDict t :: after)) →
  Forall (λ x, tag_object x = true ∧ is_named name x = false) before →
  (t !! "name" = None →
   StashREST.find_tag_by_name name st = (Raise (KeyError "name"), st'))
  ∧ (t !! "name" = Some (PStr name) → t !! "id" = None →
     StashREST.find_tag_by_name name st = (Raise (KeyError "id"), st')).
Proof.
  intros Hpost Htags Hbefore.
  assert (StashREST.find_tag_by_name name st
          = (StashREST.scan_tags name (PDict t :: after), st')) as ->.
  { rewrite find_tag_by_name_unfold. unfold StashREST.post in Hpost. rewrite Hpost.
    by rewrite (pick_tag_list name d _ Htags), (scan_tags_skip name before _ Hbefore). }
  cbn [StashREST.scan_tags]. split.
  - intros Hname. by rewrite (py_getitem_missing t "name" Hname).
  - intros Hname Hid. rewrite (py_getitem_present t "name" _ Hname).
    cbn [mbind result_bind py_eq_str]. rewrite String.eqb_refl.
    by rewrite (py_getitem_missing t "id" Hid).
Qed.
End find_tag.

(** ** Construction *)

Section construction.
Context `{Environment}.
Implicit Types (d : gmap string pyval) (c : StashRESTClient).

Lemma every_request_intro c (P : string → string → pyval → http_request → Prop) :
  (∀ method path json_body, P method path json_body (request_of c method path json_body)) →
  every_request c P.
Proof.
  intros HP st method path json_body <-.
  destruct (request_frame st method path json_body) as (_ & rest & Htrace & _).
  eauto.
Qed.

(** The constructor on a dictionary that has a port and a scheme. *)
Lemma init_dict d (p s : pyval) :
  d !! "Port" = Some p →
  d !! "Scheme" = Some s →
  StashREST.__init__ (PDict d)
  = (let cookie := default PNone (d !! "SessionCookie") in
     jar ← (if py_truthy cookie
            then value ← py_get cookie "Value" (PStr ""); mret {[ "session" := value ]}
            else mret ∅);
     mret (Build_StashRESTClient p
             (py_str s +:+ "://" +:+ py_str (default (PStr "localhost") (d !! "Host"))
              +:+ ":" +:+ py_str p +:+ "/api/v1")
             StashREST.default_headers jar)).
Proof.
  intros Hport Hscheme. unfold StashREST.__init__.
  rewrite (py_getitem_present d "Port" p Hport), (py_getitem_present d "Scheme" s Hscheme).
  reflexivity.
Qed.

(** C2 (amended). The constructor looks at the session cookie itself, not
    at its value: when the connection has a session cookie that is a
    non-empty object, the cookie mapping is exactly [session] bound to its
    [Value], or to the empty string when it has no [Value]; when the
    session cookie is absent, null, an empty object or otherwise false,
    the cookie mapping is empty. Every request carries that mapping. *)
Theorem session_cookie_mapping d :
  is_Some (d !! "Port") →
  is_Some (d !! "Scheme") →
  let cookie := default PNone (d !! "SessionCookie") in
  (py_truthy cookie = false →
   ∃ c, StashREST.__init__ (PDict d) = Ok c ∧ cookies c = ∅
        ∧ every_request c (λ _ _ _ rq, rq_cookies rq = ∅))
  ∧ (∀ ck : gmap string pyval, cookie = PDict ck → ck ≠ ∅ →
     let value := default (PStr "") (ck !! "Value") in
     ∃ c, StashREST.__init__ (PDict d) = Ok c
          ∧ cookies c = {[ "session" := value ]}
          ∧ every_request c (λ _ _ _ rq, rq_cookies rq = {[ "session" := value ]})).
Proof.
  intros [p Hport] [s Hscheme] cookie. rewrite (init_dict d p s Hport Hscheme).
  fold cookie. cbv zeta. split.
  - intros ->. eexists. split; [reflexivity |]. split; [reflexivity |].
    by apply every_request_intro.
  - intros ck -> Hck.
    assert (py_truthy (PDict ck) = true) as ->.
    { cbn. by rewrite negb_true_iff, bool_decide_eq_false. }
    eexists. split; [reflexivity |]. split; [reflexivity |].
    by apply every_request_intro.
Qed.


(** C6. For a valid connection the base URL is
    [{scheme}://{host}:{port}/api/v1], with the host of the connection when
    it has one and [localhost] when it has none, and every request goes to
    the base URL followed by the path as given. *)
Theorem base_url_of_valid_connection d scheme host port_number :
  valid_connection d scheme host port_number →
  ∃ c, StashREST.__init__ (PDict d) = Ok c
       ∧ base_url c = scheme +:+ "://" +:+ default "localhost" host +:+ ":"
                      +:+ pretty port_number +:+ "/api/v1"
       ∧ base_url c = spec_base_url scheme host port_number
       ∧ every_request c (λ method path _ rq,
           rq_method rq = method ∧ rq_url rq = base_url c +:+ path).
Proof.
  intros (Hscheme & Hport & Hhost & Hcookie).
  rewrite (init_dict d _ _ Hport Hscheme), Hhost.
  assert (∃ jar : gmap string pyval,
    (let cookie := default PNone (d !! "SessionCookie") in
     if py_truthy cookie
     then value ← py_get cookie "Value" (PStr ""); mret {[ "session" := value ]}
     else mret ∅) = Ok jar) as [jar Hjar].
  { destruct Hcookie as [-> | [-> | [ck ->]]]; cbn [default from_option id];
      [eexists; reflexivity .. |].
    destruct (py_truthy (PDict ck)); eexists; reflexivity. }
  cbv zeta in *. rewrite Hjar. eexists. split; [reflexivity |].
  assert (py_str (default (PStr "localhost") (PStr <$> host)) = default "localhost" host)
    as -> by (destruct host; reflexivity).
  split; [reflexivity |]. split; [reflexivity |].
  by apply every_request_intro.
Qed.
End construction.

(** ** Requests and the methods built on them *)

Section requests.
Context `{Environment}.
Implicit Types (st : pystate) (resp : http_response) (method path : string).

(** C3 (amended). When the response has a status of 400 or more, the call
    raises a generic exception whose message is the text
    [REST API error {status}: {body}. Method: {method}, Path: {path}],
    built from the exact status code, the raw body, the method and the
    path; the request was sent once and the body was not decoded. The
    four values are parts of one formatted message, not separate fields
    of the error. *)
Theorem request_error_raises_formatted_exception st method path json_body resp :
  let rq := request_of (st_self st) method path json_body in
  network (st_trace st) rq = Ok resp →
  400 ≤ status_code resp →
  StashREST._request method path json_body st
  = (Raise (Exception ("REST API error " +:+ pretty (status_code resp) +:+ ": "
                       +:+ text resp +:+ ". Method: " +:+ method
                       +:+ ", Path: " +:+ path)),
     PyState (st_self st) (st_trace st ++ [EvRequest rq])).
Proof.
  intros rq Hnet Hge. subst rq.
  rewrite (request_error _ _ _ _ _ Hnet Hge). reflexivity.
Qed.

(** C4 (amended). When the response has a status below 400, the call
    returns null if the status is 204 or the body is empty, whatever the
    method, and does not decode anything; otherwise it decodes the body as
    JSON and returns the outcome of the decoder as it is, any JSON value
    or the decoder's error. *)
Theorem request_success_result st method path json_body resp :
  let rq := request_of (st_self st) method path json_body in
  network (st_trace st) rq = Ok resp →
  status_code resp < 400 →
  (status_code resp = 204 ∨ text resp = "" →
   StashREST._request method path json_body st
   = (Ok PNone, PyState (st_self st) (st_trace st ++ [EvRequest rq])))
  ∧ (status_code resp ≠ 204 → text resp ≠ "" →
     StashREST._request method path json_body st
     = (json_loads (text resp),
        PyState (st_self st) (st_trace st ++ [EvRequest rq; EvJson (text resp)]))).
Proof.
  intros rq Hnet Hlt. subst rq. split.
  - intros Hnull. by rewrite (request_null _ _ _ _ _ Hnet Hlt Hnull).
  - intros H204 Htext. rewrite (request_json _ _ _ _ _ Hnet Hlt H204 Htext).
    unfold record_event. cbn [st_self st_trace]. by rewrite <- app_assoc.
Qed.


Lemma perform_frame (c : call) st : st_self (perform c st).2 = st_self st.
Proof.
  destruct c; cbn [perform];
    try (unfold StashREST.get, StashREST.post, StashREST.put, StashREST.patch,
           StashREST.delete, StashREST.create_tag, StashREST.find_scenes,
           StashREST.find_performers, StashREST.metadata_scan;
         exact (proj1 (request_frame st _ _ _))).
  rewrite find_tag_by_name_unfold.
  pose proof (proj1 (request_frame st "POST" "/tags/query" (StashREST.tag_query name)))
    as Hframe.
  by destruct (StashREST._request _ _ _ st) as [[v | e] st'].
Qed.

(** C8. The base URL, the headers and the cookies of an instance are those
    set by the constructor for good: whatever calls are made on it, and
    whatever they return or raise, the instance after the calls is the
    instance before them. *)
Theorem calls_leave_instance_unchanged (cs : list call) st :
  st_self (perform_all cs st).2 = st_self st
  ∧ base_url (st_self (perform_all cs st).2) = base_url (st_self st)
  ∧ headers (st_self (perform_all cs st).2) = headers (st_self st)
  ∧ cookies (st_self (perform_all cs st).2) = cookies (st_self st)
  ∧ length (perform_all cs st).1 = length cs.
Proof.
  assert (st_self (perform_all cs st).2 = st_self st
          ∧ length (perform_all cs st).1 = length cs) as [Hself Hlen].
  { revert st. induction cs as [| c cs IH]; intros st; [done |].
    cbn [perform_all]. pose proof (perform_frame c st) as Hc.
    destruct (perform c st) as [r st1]. destruct (IH st1) as [IHself IHlen].
    destruct (perform_all cs st1) as [rs st2]. cbn in *.
    split; [congruence | lia]. }
  by rewrite Hself.
Qed.
End requests.

(** ** The claims on concrete inputs *)


Lemma find_tag_by_name_no_tags_witness :
  (@StashREST.find_tag_by_name no_content_env "Foo" demo_state).1 = Ok PNone
  ∧ (@StashREST.find_tag_by_name empty_tags_env "Foo" demo_state).1 = Ok PNone.
Proof.
  split.
  - erewrite (@find_tag_by_name_no_tags no_content_env "Foo" demo_state PNone).
    + reflexivity.
    + vm_compute; reflexivity.
    + left; reflexivity.
  - erewrite (@find_tag_by_name_no_tags empty_tags_env "Foo" demo_state
                (PDict (<["count" := PInt 0]> {[ "tags" := PList [] ]}))).
    + reflexivity.
    + vm_compute; reflexivity.
    + right. eexists. split; [reflexivity |]. right; right. vm_compute; reflexivity.
Defined.

Lemma find_tag_by_name_lookup_error_witness :
  (@StashREST.find_tag_by_name nameless_env "Foo" demo_state).1 = Raise (KeyError "name")
  ∧ (@StashREST.find_tag_by_name idless_env "Foo" demo_state).1 = Raise (KeyError "id").
Proof.
  split.
  - destruct (@find_tag_by_name_lookup_error nameless_env "Foo" demo_state
                 (PyState demo_client
                    [EvRequest (request_of demo_client "POST" "/tags/query"
                                  (StashREST.tag_query "Foo"));
                     EvJson "{...}"])
                 {[ "tags" := PList [tag "1" "Foobar"; PDict {[ "id" := PStr "2" ]}] ]}
                 [tag "1" "Foobar"] {[ "id" := PStr "2" ]} []) as [Hname _].
    + vm_compute; reflexivity.
    + vm_compute; reflexivity.
    + repeat constructor.
    + rewrite Hname; [reflexivity |]. vm_compute; reflexivity.
  - destruct (@find_tag_by_name_lookup_error idless_env "Foo" demo_state
                 (PyState demo_client
                    [EvRequest (request_of demo_client "POST" "/tags/query"
                                  (StashREST.tag_query "Foo"));
                     EvJson "{...}"])
                 {[ "tags" := PList [tag "1" "Foobar"; PDict {[ "name" := PStr "Foo" ]}] ]}
                 [tag "1" "Foobar"] {[ "name" := PStr "Foo" ]} []) as [_ Hid].
    + vm_compute; reflexivity.
    + vm_compute; reflexivity.
    + repeat constructor.
    + rewrite Hid; [reflexivity | |]; vm_compute; reflexivity.
Defined.

(** C2, as stated, fails: a session cookie with an empty value is stored,
    so the cookie mapping is not empty. *)
Lemma empty_session_value_is_stored :
  default PNone (empty_value_conn !! "SessionCookie") = PDict {[ "Value" := PStr "" ]}
  ∧ ∃ c, @StashREST.__init__ foo_env (PDict empty_value_conn) = Ok c
         ∧ cookies c = {[ "session" := PStr "" ]}
         ∧ cookies c ≠ ∅.
Proof.
  split; [vm_compute; reflexivity |].
  exists (Build_StashRESTClient (PInt 9999) "http://localhost:9999/api/v1"
            StashREST.default_headers {[ "session" := PStr "" ]}).
  split; [vm_compute; reflexivity |]. split; [reflexivity |].
  cbn [cookies]. apply map_non_empty_singleton.
Qed.

Lemma session_cookie_mapping_witness :
  ∃ c, @StashREST.__init__ foo_env (PDict demo_conn) = Ok c
       ∧ cookies c = {[ "session" := PStr "abc" ]}.
Proof.
  destruct (@session_cookie_mapping foo_env demo_conn) as [_ Hset].
  - eexists; vm_compute; reflexivity.
  - eexists; vm_compute; reflexivity.
  - destruct (Hset {[ "Value" := PStr "abc" ]}) as (c & Hinit & Hjar & _).
    + vm_compute; reflexivity.
    + apply map_non_empty_singleton.
    + exists c. split; [exact Hinit |]. rewrite Hjar. vm_compute; reflexivity.
Defined.


Lemma base_url_of_valid_connection_witness :
  ∃ c, @StashREST.__init__ foo_env (PDict demo_conn) = Ok c
       ∧ base_url c = "http://localhost:9999/api/v1".
Proof.
  destruct (@base_url_of_valid_connection foo_env demo_conn "http" (Some "localhost") 9999)
    as (c & Hinit & Hurl & _).
  - repeat split; try (vm_compute; reflexivity).
    right; right. eexists. vm_compute; reflexivity.
  - exists c. split; [exact Hinit |]. rewrite Hurl. vm_compute; reflexivity.
Defined.

(** C3, as stated, fails: the error is one formatted message, and two
    failures that differ in body and path raise the same error, so no
    function of the error gives the four values back. *)
Lemma api_error_fields_not_recoverable :
  ¬ ∃ fields : exn → Z * string * string * string,
      ∀ (resp : http_response) (method path : string) (e : exn),
        400 ≤ status_code resp →
        (@StashREST._request (canned resp (Raise JSONDecodeError))
           method path PNone demo_state).1 = Raise e →
        fields e = (status_code resp, text resp, method, path).
Proof.
  intros [fields Hfields].
  set (e := Exception "REST API error 500: a. Method: GET, Path: /b. Method: GET, Path: /c").
  assert (fields e = (500, "a", "GET", "/b. Method: GET, Path: /c")) as Hone.
  { apply (Hfields (HttpResponse 500 "a") "GET" "/b. Method: GET, Path: /c" e);
      [cbn; lia | vm_compute; reflexivity]. }
  assert (fields e = (500, "a. Method: GET, Path: /b", "GET", "/c")) as Htwo.
  { apply (Hfields (HttpResponse 500 "a. Method: GET, Path: /b") "GET" "/c" e);
      [cbn; lia | vm_compute; reflexivity]. }
  rewrite Hone in Htwo. discriminate Htwo.
Qed.

Lemma request_error_raises_formatted_exception_witness :
  @StashREST._request not_found_env "GET" "/tags/9" PNone demo_state
  = (Raise (Exception "REST API error 404: not found. Method: GET, Path: /tags/9"),
     PyState demo_client [EvRequest (request_of demo_client "GET" "/tags/9" PNone)]).
Proof.
  rewrite (@request_error_raises_formatted_exception not_found_env demo_state
             "GET" "/tags/9" PNone (HttpResponse 404 "not found")).
  - vm_compute; reflexivity.
  - reflexivity.
  - cbn; lia.
Defined.

(** C4, as stated, fails: an empty body under a status of 400 or more is an
    error, not null. *)
Lemma empty_body_of_error_is_not_null :
  text (HttpResponse 500 "") = ""
  ∧ (@StashREST._request failing_env "GET" "/tags" PNone demo_state).1
    = Raise (Exception "REST API error 500: . Method: GET, Path: /tags")
  ∧ (@StashREST._request failing_env "GET" "/tags" PNone demo_state).1 ≠ Ok PNone.
Proof.
  split; [reflexivity |].
  assert ((@StashREST._request failing_env "GET" "/tags" PNone demo_state).1
          = Raise (Exception "REST API error 500: . Method: GET, Path: /tags")) as ->
    by (vm_compute; reflexivity).
  split; [reflexivity | discriminate].
Qed.

Lemma request_success_result_witness :
  (@StashREST._request no_content_env "DELETE" "/tags/9" PNone demo_state).1 = Ok PNone
  ∧ (@StashREST._request foo_env "GET" "/tags" PNone demo_state).1 = Ok foo_answer.
Proof.
  split.
  - destruct (@request_success_result no_content_env demo_state "DELETE" "/tags/9" PNone
                (HttpResponse 204 "")) as [Hnull _].
    + reflexivity.
    + cbn; lia.
    + rewrite Hnull; [reflexivity |]. left; reflexivity.
  - destruct (@request_success_result foo_env demo_state "GET" "/tags" PNone
                (HttpResponse 200 "{...}")) as [_ Hjson].
    + reflexivity.
    + cbn; lia.
    + rewrite Hjson; [reflexivity | cbn; lia | discriminate].
Defined.


(** * Further properties of the code *)

(** ** One request per call *)

Section wire.
Context `{Environment}.
Implicit Types (st : pystate) (c : call) (cs : list call).

(** Every method is its one request followed by [after_request]. *)
Lemma perform_via_request c st :
  perform c st
  = ((after_request c (StashREST._request (wire_of c).1.1 (wire_of c).1.2 (wire_of c).2 st).1),
     (StashREST._request (wire_of c).1.1 (wire_of c).1.2 (wire_of c).2 st).2).
Proof.
  destruct c; cbn [perform wire_of after_request fst snd];
    try exact (surjective_pairing _).
  rewrite find_tag_by_name_unfold.
  by destruct (StashREST._request _ _ _ st) as [[v | e] st'].
Qed.

Lemma perform_raises c st e st' :
  StashREST._request (wire_of c).1.1 (wire_of c).1.2 (wire_of c).2 st = (Raise e, st') →
  perform c st = (Raise e, st').
Proof.
  intros Hreq. rewrite perform_via_request, Hreq. by destruct c.
Qed.

Lemma count_requests_app (tr tr' : list event) :
  count_requests (tr ++ tr') = (count_requests tr + count_requests tr')%nat.
Proof. unfold count_requests. by rewrite List.filter_app, length_app. Qed.

Lemma count_decodings_app (tr tr' : list event) :
  count_decodings (tr ++ tr') = (count_decodings tr + count_decodings tr')%nat.
Proof. unfold count_decodings. by rewrite List.filter_app, length_app. Qed.

Lemma perform_trace c st :
  ∃ decoding,
    st_trace (perform c st).2 = st_trace st ++ EvRequest (sent_by (st_self st) c) :: decoding
    ∧ (decoding = [] ∨ ∃ body, decoding = [EvJson body]).
Proof.
  rewrite perform_via_request. cbn [snd].
  destruct (request_frame st (wire_of c).1.1 (wire_of c).1.2 (wire_of c).2)
    as (_ & decoding & Htrace & Hdecoding).
  by exists decoding.
Qed.

(** X1. Each method, verb or convenience, puts exactly one request on the
    wire, with the method, path and body of [wire_of] and the headers and
    cookies of the instance, whatever the outcome; after it the answer is
    decoded at most once. *)
Theorem perform_sends_one_request c st :
  ∃ decoding,
    st_trace (perform c st).2 = st_trace st ++ EvRequest (sent_by (st_self st) c) :: decoding
    ∧ (decoding = [] ∨ ∃ body, decoding = [EvJson body])
    ∧ rq_headers (sent_by (st_self st) c) = headers (st_self st)
    ∧ rq_cookies (sent_by (st_self st) c) = cookies (st_self st)
    ∧ rq_url (sent_by (st_self st) c) = base_url (st_self st) +:+ (wire_of c).1.2.
Proof.
  destruct (perform_trace c st) as (decoding & Htrace & Hdecoding).
  exists decoding. by repeat split.
Qed.

(** X2. Calls only append to the trace, and a sequence of calls makes as
    many requests as it has calls: nothing is retried, batched or answered
    from a cache; the answers are decoded at most once each. *)
Theorem perform_all_request_count cs st :
  st_trace st `prefix_of` st_trace (perform_all cs st).2
  ∧ count_requests (st_trace (perform_all cs st).2)
    = (count_requests (st_trace st) + length cs)%nat
  ∧ (count_decodings (st_trace (perform_all cs st).2)
     ≤ count_decodings (st_trace st) + length cs)%nat.
Proof.
  revert st. induction cs as [| c cs IH]; intros st.
  - cbn. repeat split; [done | lia | lia].
  - cbn [perform_all].
    destruct (perform_trace c st) as (decoding & Htrace & Hdecoding).
    destruct (perform c st) as [r st1]. cbn [snd] in Htrace.
    destruct (IH st1) as (Hprefix & Hreq & Hdec).
    destruct (perform_all cs st1) as [rs st2]. cbn [snd length] in *.
    rewrite Hreq, Htrace, count_requests_app. rewrite Htrace in Hdec, Hprefix.
    rewrite count_decodings_app in Hdec.
    split; [| split].
    + etrans; [| exact Hprefix]. by apply prefix_app_r.
    + destruct Hdecoding as [-> | [body ->]]; cbn; lia.
    + destruct Hdecoding as [-> | [body ->]]; cbn in *; lia.
Qed.
End wire.

(** ** Failures reach the caller *)

Section failures.
Context `{Environment}.
Implicit Types (st : pystate) (c : call) (resp : http_response).

(** X3. No method catches a failure of the transport: when the transport
    raises, the call raises the same exception, after the one request and
    without a second attempt. *)
Theorem transport_failure_reaches_the_caller c st e :
  network (st_trace st) (sent_by (st_self st) c) = Raise e →
  perform c st
  = (Raise e, PyState (st_self st) (st_trace st ++ [EvRequest (sent_by (st_self st) c)])).
Proof.
  intros Hnet. apply perform_raises.
  by rewrite (request_transport_failure _ _ _ _ _ Hnet).
Qed.

(** X4. A status of 400 or more fails every method alike, the convenience
    methods included: [find_tag_by_name] raises instead of returning null,
    and the message names the method and path of the request the call
    made. *)
Theorem http_error_reaches_the_caller c st resp :
  network (st_trace st) (sent_by (st_self st) c) = Ok resp →
  400 ≤ status_code resp →
  perform c st
  = (Raise (Exception ("REST API error " +:+ pretty (status_code resp) +:+ ": "
                       +:+ text resp +:+ ". Method: " +:+ (wire_of c).1.1
                       +:+ ", Path: " +:+ (wire_of c).1.2)),
     PyState (st_self st) (st_trace st ++ [EvRequest (sent_by (st_self st) c)])).
Proof.
  intros Hnet Hge. apply perform_raises.
  by rewrite (request_error _ _ _ _ _ Hnet Hge).
Qed.

(** X5. When a successful response has a body that the decoder rejects,
    every method raises the decoder's exception; nothing is replaced by
    null or by a default. *)
Theorem undecodable_answer_reaches_the_caller c st resp e :
  network (st_trace st) (sent_by (st_self st) c) = Ok resp →
  status_code resp < 400 →
  status_code resp ≠ 204 →
  text resp ≠ "" →
  json_loads (text resp) = Raise e →
  perform c st
  = (Raise e,
     PyState (st_self st)
       (st_trace st ++ [EvRequest (sent_by (st_self st) c); EvJson (text resp)])).
Proof.
  intros Hnet Hlt H204 Htext Hjson. apply perform_raises.
  rewrite (request_json _ _ _ _ _ Hnet Hlt H204 Htext), Hjson.
  unfold record_event. cbn [st_self st_trace]. by rewrite <- app_assoc.
Qed.
End failures.

(** ** What the constructor accepts *)

Section constructor_domain.
Context `{Environment}.
Implicit Types (d : gmap string pyval) (conn : pyval) (c : StashRESTClient).

Lemma init_not_dict conn :
  is_dict conn = false → ∃ msg, StashREST.__init__ conn = Raise (TypeError msg).
Proof. destruct conn; try discriminate; intros _; by eexists. Qed.

Lemma init_no_port d :
  d !! "Port" = None → StashREST.__init__ (PDict d) = Raise (KeyError "Port").
Proof.
  intros Hport. unfold StashREST.__init__.
  by rewrite (py_getitem_missing d "Port" Hport).
Qed.

Lemma init_no_scheme d :
  is_Some (d !! "Port") → d !! "Scheme" = None →
  StashREST.__init__ (PDict d) = Raise (KeyError "Scheme").
Proof.
  intros [p Hport] Hscheme. unfold StashREST.__init__.
  rewrite (py_getitem_present d "Port" p Hport).
  by rewrite (py_getitem_missing d "Scheme" Hscheme).
Qed.

Lemma init_bad_cookie d (v : pyval) :
  is_Some (d !! "Port") → is_Some (d !! "Scheme") →
  d !! "SessionCookie" = Some v → py_truthy v = true → is_dict v = false →
  StashREST.__init__ (PDict d) = Raise (AttributeError "get").
Proof.
  intros [p Hport] [s Hscheme] Hcookie Htruthy Hdict.
  rewrite (init_dict d p s Hport Hscheme), Hcookie. cbn [default from_option id].
  cbv zeta. rewrite Htruthy. by destruct v.
Qed.

Lemma init_good_cookie d :
  is_Some (d !! "Port") → is_Some (d !! "Scheme") →
  (py_truthy (default PNone (d !! "SessionCookie")) = false
   ∨ ∃ ck, d !! "SessionCookie" = Some (PDict ck)) →
  is_ok (StashREST.__init__ (PDict d)) = true.
Proof.
  intros [p Hport] [s Hscheme] Hcookie.
  rewrite (init_dict d p s Hport Hscheme). cbv zeta.
  destruct Hcookie as [-> | [ck ->]]; [reflexivity |].
  cbn [default from_option id]. by destruct (py_truthy (PDict ck)).
Qed.

Lemma init_headers conn c :
  StashREST.__init__ conn = Ok c → headers c = StashREST.default_headers.
Proof.
  unfold StashREST.__init__.
  destruct (py_getitem conn "Port"); cbn [mbind result_bind]; [| discriminate].
  destruct (py_getitem conn "Scheme"); cbn [mbind result_bind]; [| discriminate].
  destruct (py_get conn "Host" _); cbn [mbind result_bind]; [| discriminate].
  destruct (py_get conn "SessionCookie" _) as [cookie |];
    cbn [mbind result_bind]; [| discriminate].
  destruct (py_truthy cookie); cbn [mbind result_bind mret result_ret].
  - destruct (py_get cookie "Value" _); cbn [mbind result_bind mret result_ret];
      [| discriminate].
    by intros [= <-].
  - by intros [= <-].
Qed.

(** X6. The constructor succeeds exactly on a dictionary that has a
    ["Port"] and a ["Scheme"] entry, of any value, and whose
    ["SessionCookie"] entry is absent, false in a test, or a dictionary. *)
Theorem construction_succeeds_iff conn :
  is_ok (StashREST.__init__ conn) = true ↔ constructible conn.
Proof.
  split.
  - intros Hok. destruct (is_dict conn) eqn:Hdict.
    + destruct conn as [| | | | | | d]; try discriminate. exists d.
      destruct (d !! "Port") as [p |] eqn:Hport;
        [| by rewrite (init_no_port d Hport) in Hok].
      destruct (d !! "Scheme") as [s |] eqn:Hscheme;
        [| by rewrite (init_no_scheme d) in Hok; eauto].
      repeat split; eauto.
      destruct (d !! "SessionCookie") as [v |] eqn:Hcookie; [| by left].
      destruct (py_truthy v) eqn:Htruthy; [| by left].
      destruct (is_dict v) eqn:Hv.
      * destruct v; try discriminate. right. by eexists.
      * rewrite (init_bad_cookie d v) in Hok by eauto. discriminate.
    + destruct (init_not_dict conn Hdict) as [msg Hmsg].
      rewrite Hmsg in Hok. discriminate.
  - intros (d & -> & Hport & Hscheme & Hcookie). by apply init_good_cookie.
Qed.

(** X7. How the constructor fails: on a connection that is not a
    dictionary with a [TypeError]; on a dictionary without ["Port"] with
    [KeyError("Port")], also when ["Scheme"] is missing too, and without
    ["Scheme"] alone with [KeyError("Scheme")]; and on a session cookie that
    is true in a test but is not a dictionary, such as a bare string, with
    the [AttributeError] of its missing [get]. *)
Theorem construction_failure_modes :
  (∀ conn, is_dict conn = false →
     ∃ msg, StashREST.__init__ conn = Raise (TypeError msg))
  ∧ (∀ d, d !! "Port" = None →
       StashREST.__init__ (PDict d) = Raise (KeyError "Port"))
  ∧ (∀ d, is_Some (d !! "Port") → d !! "Scheme" = None →
       StashREST.__init__ (PDict d) = Raise (KeyError "Scheme"))
  ∧ (∀ d (v : pyval),
       is_Some (d !! "Port") → is_Some (d !! "Scheme") →
       d !! "SessionCookie" = Some v → py_truthy v = true → is_dict v = false →
       StashREST.__init__ (PDict d) = Raise (AttributeError "get")).
Proof.
  split; [exact init_not_dict |]. split; [exact init_no_port |].
  split; [exact init_no_scheme | exact init_bad_cookie].
Qed.

(** X8. Every instance the constructor builds has the same four headers,
    whatever the connection, and every request it makes carries exactly
    them. *)
Theorem default_headers_on_every_instance conn c :
  StashREST.__init__ conn = Ok c →
  headers c !! "Accept-Encoding" = Some "gzip, deflate, br"
  ∧ headers c !! "Content-Type" = Some "application/json"
  ∧ headers c !! "Accept" = Some "application/json"
  ∧ headers c !! "Connection" = Some "keep-alive"
  ∧ (∀ key, key ∉ ["Accept-Encoding"; "Content-Type"; "Accept"; "Connection"] →
       headers c !! key = None)
  ∧ every_request c (λ _ _ _ rq, rq_headers rq = headers c).
Proof.
  intros Hinit. rewrite (init_headers conn c Hinit).
  repeat split; try (vm_compute; reflexivity).
  - intros key Hkey. unfold StashREST.default_headers.
    repeat (apply not_elem_of_cons in Hkey as [? Hkey]).
    by rewrite !lookup_insert_ne, lookup_empty.
  - apply every_request_intro. intros. cbn. by apply init_headers in Hinit.
Qed.
End constructor_domain.

(** ** [find_tag_by_name] on answers of other shapes *)

Section answer_shapes.
Context `{Environment}.
Implicit Types (name : string) (st : pystate) (d : gmap string pyval).

Lemma find_tag_by_name_pick name st (v : pyval) st' :
  StashREST.post "/tags/query" (StashREST.tag_query name) st = (Ok v, st') →
  StashREST.find_tag_by_name name st = (StashREST.pick_tag name v, st').
Proof.
  intros Hpost. rewrite find_tag_by_name_unfold.
  unfold StashREST.post in Hpost. by rewrite Hpost.
Qed.

(** Objects of another name are stepped over, with or without an id. *)
Lemma scan_tags_skip_other name before rest :
  Forall (λ x, other_name name x = true) before →
  StashREST.scan_tags name (before ++ rest) = StashREST.scan_tags name rest.
Proof.
  induction 1 as [| x before Hx _ IH]; [reflexivity |].
  destruct x as [| | | | | | t]; try discriminate. cbn [other_name] in Hx.
  destruct (t !! "name") as [v |] eqn:Hname; [| discriminate].
  apply negb_true_iff in Hx.
  cbn [app StashREST.scan_tags].
  rewrite (py_getitem_present t "name" v Hname). cbn [mbind result_bind].
  by rewrite Hx.
Qed.

Lemma pick_tag_truthy_tags name d (v : pyval) :
  d !! "tags" = Some v → py_truthy v = true →
  StashREST.pick_tag name (PDict d) = py_iter v ≫= StashREST.scan_tags name.
Proof.
  intros Htags Htruthy. unfold StashREST.pick_tag.
  rewrite (dict_truthy d "tags" v Htags). cbn [py_get]. rewrite Htags.
  cbn [default from_option id mbind result_bind mret result_ret].
  by rewrite Htruthy, (py_getitem_present d "tags" v Htags).
Qed.

Lemma chars_nonempty (s : string) :
  s ≠ "" → ∃ c rest, chars s = PStr c :: rest.
Proof. destruct s; [done |]. cbn. eauto. Qed.

(** X9. When the answer to the query is not an object, [find_tag_by_name]
    returns null if the answer is false in a test (false, zero, an empty
    string or list) and otherwise raises the [AttributeError] of the missing
    [get]: a top-level array of tags is not searched. *)
Theorem find_tag_by_name_answer_not_object name st (v : pyval) st' :
  StashREST.post "/tags/query" (StashREST.tag_query name) st = (Ok v, st') →
  is_dict v = false →
  StashREST.find_tag_by_name name st
  = (if py_truthy v then Raise (AttributeError "get") else Ok PNone, st').
Proof.
  intros Hpost Hdict. rewrite (find_tag_by_name_pick name st v st' Hpost).
  f_equal. unfold StashREST.pick_tag.
  destruct (py_truthy v) eqn:Htruthy; [| reflexivity].
  by destruct v.
Qed.

(** X10. When the [tags] entry of the answer is true in a test but is not a
    list (a number, a non-empty string or object), [find_tag_by_name]
    raises a [TypeError]; it does not return null. *)
Theorem find_tag_by_name_tags_not_list name st d (v : pyval) st' :
  StashREST.post "/tags/query" (StashREST.tag_query name) st = (Ok (PDict d), st') →
  d !! "tags" = Some v →
  py_truthy v = true →
  is_list v = false →
  ∃ msg, StashREST.find_tag_by_name name st = (Raise (TypeError msg), st').
Proof.
  intros Hpost Htags Htruthy Hlist.
  rewrite (find_tag_by_name_pick name st _ st' Hpost).
  rewrite (pick_tag_truthy_tags name d v Htags Htruthy).
  destruct v as [| b | z | bits | s | l | d']; try discriminate; try by eexists.
  - destruct (chars_nonempty s) as (c & rest & Hchars).
    { intros ->. discriminate. }
    cbn [py_iter mbind result_bind]. rewrite Hchars. by eexists.
  - cbn [py_iter mbind result_bind].
    destruct (map_to_list d') as [| [k x] l] eqn:Hlist'.
    + apply map_to_list_empty_iff in Hlist' as ->. discriminate.
    + by eexists.
Qed.

(** X11. An item of the [tags] list that is not an object (null, a number,
    a string, a list), met before any match, makes [find_tag_by_name] raise
    a [TypeError], even when a matching tag follows it. *)
Theorem find_tag_by_name_item_not_object name st st' d before (item : pyval) after :
  StashREST.post "/tags/query" (StashREST.tag_query name) st = (Ok (PDict d), st') →
  d !! "tags" = Some (PList (before ++ item :: after)) →
  Forall (λ x, other_name name x = true) before →
  is_dict item = false →
  ∃ msg, StashREST.find_tag_by_name name st = (Raise (TypeError msg), st').
Proof.
  intros Hpost Htags Hbefore Hitem.
  rewrite (find_tag_by_name_pick name st _ st' Hpost).
  rewrite (pick_tag_list name d _ Htags), (scan_tags_skip_other name before _ Hbefore).
  destruct item; try discriminate; by eexists.
Qed.

(** X12. The search ends at the first exact match: the items before it need
    a name but no id, and the items after it are never looked at, so
    whatever they are they cannot make the call fail. *)
Theorem find_tag_by_name_stops_at_first_match name st st' d before
    (t : gmap string pyval) (id : pyval) after :
  StashREST.post "/tags/query" (StashREST.tag_query name) st = (Ok (PDict d), st') →
  d !! "tags" = Some (PList (before ++ PDict t :: after)) →
  Forall (λ x, other_name name x = true) before →
  t !! "name" = Some (PStr name) →
  t !! "id" = Some id →
  StashREST.find_tag_by_name name st = (Ok id, st').
Proof.
  intros Hpost Htags Hbefore Hname Hid.
  rewrite (find_tag_by_name_pick name st _ st' Hpost).
  rewrite (pick_tag_list name d _ Htags), (scan_tags_skip_other name before _ Hbefore).
  cbn [StashREST.scan_tags]. rewrite (py_getitem_present t "name" _ Hname).
  cbn [mbind result_bind py_eq_str]. rewrite String.eqb_refl.
  by rewrite (py_getitem_present t "id" id Hid).
Qed.
End answer_shapes.

(** ** The bodies of the query methods, for every argument *)

Section bodies.
Implicit Types (arg : pyval) (key : string).

Lemma set_if_lookup arg key (body : gmap string pyval) :
  body !! key = None → StashREST.set_if arg key body !! key = sent_if_truthy arg.
Proof.
  intros Hfresh. unfold StashREST.set_if, sent_if_truthy.
  destruct (py_truthy arg); [apply lookup_insert_eq | exact Hfresh].
Qed.

(** X13. The gate on an optional argument is its truth value, for arguments
    of every type: a body holds a key exactly when the argument is true in a
    test, bound to the argument as given, and holds nothing else. So the
    scalars that are false (False, 0, 0.0) are left out like null, and
    when every argument is false the body is empty. *)
Theorem query_bodies_by_truthiness (filter_params scene_filter performer_filter paths : pyval) :
  (∀ key, StashREST.find_scenes_body filter_params scene_filter !! key
          = if decide (key = "scene_filter") then sent_if_truthy scene_filter
            else if decide (key = "filter") then sent_if_truthy filter_params
            else None)
  ∧ (∀ key, StashREST.find_performers_body filter_params performer_filter !! key
            = if decide (key = "performer_filter") then sent_if_truthy performer_filter
              else if decide (key = "filter") then sent_if_truthy filter_params
              else None)
  ∧ (∀ key, StashREST.metadata_scan_body paths !! key
            = if decide (key = "paths") then sent_if_truthy paths else None)
  ∧ (py_truthy filter_params = false → py_truthy scene_filter = false →
     StashREST.find_scenes_body filter_params scene_filter = ∅)
  ∧ (py_truthy filter_params = false → py_truthy performer_filter = false →
     StashREST.find_performers_body filter_params performer_filter = ∅)
  ∧ (py_truthy paths = false → StashREST.metadata_scan_body paths = ∅).
Proof.
  assert (∀ a b ka kb key, ka ≠ kb →
            StashREST.set_if b kb (StashREST.set_if a ka ∅) !! key
            = if decide (key = kb) then sent_if_truthy b
              else if decide (key = ka) then sent_if_truthy a else None) as Htwo.
  { intros a b ka kb key Hne. destruct (decide (key = kb)) as [-> | Hkb].
    - apply set_if_lookup. by rewrite set_if_other.
    - rewrite set_if_other by done. destruct (decide (key = ka)) as [-> | Hka].
      + by apply set_if_lookup.
      + by rewrite set_if_other. }
  split; [| split; [| split; [| split; [| split]]]].
  - intros key. by apply Htwo.
  - intros key. by apply Htwo.
  - intros key. unfold StashREST.metadata_scan_body.
    destruct (decide (key = "paths")) as [-> | Hkey].
    + by apply set_if_lookup.
    + by rewrite set_if_other.
  - intros Hfp Hsf. unfold StashREST.find_scenes_body, StashREST.set_if.
    by rewrite Hfp, Hsf.
  - intros Hfp Hpf. unfold StashREST.find_performers_body, StashREST.set_if.
    by rewrite Hfp, Hpf.
  - intros Hpaths. unfold StashREST.metadata_scan_body, StashREST.set_if.
    by rewrite Hpaths.
Qed.
End bodies.

(** ** The [port] attribute *)

Section port_attribute.
Context `{Environment}.
Implicit Types (c : StashRESTClient) (p : pyval) (tr : list event).

Lemma request_ignores_port c p tr method path json_body :
  (StashREST._request method path json_body (PyState (with_port c p) tr)).1
  = (StashREST._request method path json_body (PyState c tr)).1
  ∧ st_trace (StashREST._request method path json_body (PyState (with_port c p) tr)).2
    = st_trace (StashREST._request method path json_body (PyState c tr)).2.
Proof.
  unfold StashREST._request, mbind, Py_bind, get_self, requests_request.
  cbn [st_self st_trace with_port base_url headers cookies].
  destruct (network tr _) as [resp | e]; [| done].
  destruct (400 <=? status_code resp); [done |].
  by destruct ((status_code resp =? 204) || negb (py_truthy (PStr (text resp)))).
Qed.

Lemma perform_ignores_port c p tr (cl : call) :
  (perform cl (PyState (with_port c p) tr)).1 = (perform cl (PyState c tr)).1
  ∧ st_trace (perform cl (PyState (with_port c p) tr)).2
    = st_trace (perform cl (PyState c tr)).2.
Proof.
  rewrite !perform_via_request. cbn [fst snd].
  destruct (request_ignores_port c p tr (wire_of cl).1.1 (wire_of cl).1.2 (wire_of cl).2)
    as [-> ->].
  done.
Qed.

(** X14. The constructor stores the port in [self.port], and no method
    reads it afterwards: an instance that differs only in that attribute
    gives the same results and makes the same requests, call after call. *)
Theorem port_attribute_is_never_read c p tr (cs : list call) :
  (perform_all cs (PyState (with_port c p) tr)).1 = (perform_all cs (PyState c tr)).1
  ∧ st_trace (perform_all cs (PyState (with_port c p) tr)).2
    = st_trace (perform_all cs (PyState c tr)).2.
Proof.
  revert tr. induction cs as [| cl cs IH]; intros tr; [done |].
  cbn [perform_all].
  destruct (perform_ignores_port c p tr cl) as [Hr Htr].
  pose proof (perform_frame cl (PyState (with_port c p) tr)) as Hself1.
  pose proof (perform_frame cl (PyState c tr)) as Hself2.
  destruct (perform cl (PyState (with_port c p) tr)) as [r1 [c1 tr1]].
  destruct (perform cl (PyState c tr)) as [r2 [c2 tr2]].
  cbn in Hr, Htr, Hself1, Hself2. subst r2 tr2 c1 c2.
  destruct (IH tr1) as [IHr IHtr].
  destruct (perform_all cs (PyState (with_port c p) tr1)) as [rs1 st1].
  destruct (perform_all cs (PyState c tr1)) as [rs2 st2].
  cbn in *. by subst.
Qed.
End port_attribute.

(** ** The further properties on concrete inputs *)

Lemma transport_failure_reaches_the_caller_witness :
  (@perform offline_env (Call_find_tag_by_name "Foo") demo_state).1
  = Raise (ConnectionError "connection refused").
Proof.
  rewrite (@transport_failure_reaches_the_caller offline_env
             (Call_find_tag_by_name "Foo") demo_state
             (ConnectionError "connection refused")); reflexivity.
Defined.

Lemma http_error_reaches_the_caller_witness :
  (@perform not_found_env (Call_find_tag_by_name "Foo") demo_state).1
  = Raise (Exception "REST API error 404: not found. Method: POST, Path: /tags/query").
Proof.
  rewrite (@http_error_reaches_the_caller not_found_env
             (Call_find_tag_by_name "Foo") demo_state (HttpResponse 404 "not found")).
  - vm_compute; reflexivity.
  - reflexivity.
  - cbn; lia.
Defined.

Lemma undecodable_answer_reaches_the_caller_witness :
  (@perform garbled_env (Call_create_tag "Bar") demo_state).1 = Raise JSONDecodeError.
Proof.
  rewrite (@undecodable_answer_reaches_the_caller garbled_env
             (Call_create_tag "Bar") demo_state (HttpResponse 200 "<html>") JSONDecodeError).
  - reflexivity.
  - reflexivity.
  - cbn; lia.
  - cbn; lia.
  - discriminate.
  - reflexivity.
Defined.

Lemma construction_succeeds_iff_witness :
  is_ok (@StashREST.__init__ foo_env (PDict demo_conn)) = true
  ∧ ¬ constructible (PDict string_cookie_conn).
Proof.
  split.
  - apply (@construction_succeeds_iff foo_env). exists demo_conn.
    split; [reflexivity |]. split; [eexists; vm_compute; reflexivity |].
    split; [eexists; vm_compute; reflexivity |].
    right. eexists. vm_compute; reflexivity.
  - intros Hc. apply (@construction_succeeds_iff foo_env) in Hc.
    vm_compute in Hc. discriminate Hc.
Defined.

Lemma construction_failure_modes_witness :
  @StashREST.__init__ foo_env (PDict string_cookie_conn) = Raise (AttributeError "get")
  ∧ ∃ msg, @StashREST.__init__ foo_env PNone = Raise (TypeError msg).
Proof.
  destruct (@construction_failure_modes foo_env) as (Htype & _ & _ & Hcookie).
  split.
  - apply (Hcookie string_cookie_conn (PStr "abc"));
      try (eexists; vm_compute; reflexivity); vm_compute; reflexivity.
  - apply Htype. reflexivity.
Defined.

Lemma default_headers_on_every_instance_witness :
  headers demo_client !! "Content-Type" = Some "application/json"
  ∧ headers demo_client !! "Authorization" = None.
Proof.
  destruct (@default_headers_on_every_instance foo_env (PDict demo_conn) demo_client)
    as (_ & Hct & _ & _ & Hother & _).
  - vm_compute; reflexivity.
  - split; [exact Hct |]. apply Hother.
    repeat (apply not_elem_of_cons; split; [discriminate |]). apply not_elem_of_nil.
Defined.

Lemma find_tag_by_name_answer_not_object_witness :
  (@StashREST.find_tag_by_name array_env "Foo" demo_state).1 = Raise (AttributeError "get").
Proof.
  erewrite (@find_tag_by_name_answer_not_object array_env "Foo" demo_state
              (PList [tag "3" "Foo"])).
  - reflexivity.
  - vm_compute; reflexivity.
  - reflexivity.
Defined.

Lemma find_tag_by_name_tags_not_list_witness :
  ∃ msg, (@StashREST.find_tag_by_name tags_string_env "Foo" demo_state).1
         = Raise (TypeError msg).
Proof.
  destruct (@find_tag_by_name_tags_not_list tags_string_env "Foo" demo_state
              {[ "tags" := PStr "Foo" ]} (PStr "Foo")
              (@StashREST.post tags_string_env "/tags/query"
                 (StashREST.tag_query "Foo") demo_state).2) as [msg Hmsg];
    try (vm_compute; reflexivity).
  exists msg. by rewrite Hmsg.
Defined.

Lemma find_tag_by_name_item_not_object_witness :
  ∃ msg, (@StashREST.find_tag_by_name tags_null_item_env "Foo" demo_state).1
         = Raise (TypeError msg).
Proof.
  destruct (@find_tag_by_name_item_not_object tags_null_item_env "Foo" demo_state
              (@StashREST.post tags_null_item_env "/tags/query"
                 (StashREST.tag_query "Foo") demo_state).2
              {[ "tags" := PList [tag "1" "Foobar"; PNone; tag "3" "Foo"] ]}
              [tag "1" "Foobar"] PNone [tag "3" "Foo"]) as [msg Hmsg];
    try (vm_compute; reflexivity).
  - repeat constructor.
  - exists msg. by rewrite Hmsg.
Defined.

Lemma find_tag_by_name_stops_at_first_match_witness :
  (@StashREST.find_tag_by_name junk_after_match_env "Foo" demo_state).1 = Ok (PStr "3").
Proof.
  erewrite (@find_tag_by_name_stops_at_first_match junk_after_match_env "Foo" demo_state _
              {[ "tags" := PList [PDict {[ "name" := PStr "Foobar" ]}; tag "3" "Foo";
                                  PNone; PInt 7] ]}
              [PDict {[ "name" := PStr "Foobar" ]}]
              (<["id" := PStr "3"]> {[ "name" := PStr "Foo" ]}) (PStr "3") [PNone; PInt 7]).
  - reflexivity.
  - vm_compute; reflexivity.
  - vm_compute; reflexivity.
  - repeat constructor.
  - vm_compute; reflexivity.
  - vm_compute; reflexivity.
Defined.
